(** * The branching-model notebook (answers/05 Model Architectures-ANSWER_KEY.ipynb)

    The notebook is a straight-line Python 2 script over the Neon framework:
    it imports names, builds configuration objects, assembles three layer
    paths that share two branch markers, wraps them in a tree, builds a
    cost aggregate, initializes the model and trains it.

    The framework itself is not part of the repository.  The embedding keeps
    it abstract: every interaction with it (an import, a call, a method
    invocation) is an event; a [Framework] says at which events an exception
    is raised and what the MNIST loader returns.  What the
    notebook itself does -- the order of the calls, the arguments it passes,
    the objects it shares between paths, the names it binds -- is executed
    in a state-and-exception monad over a store of objects. *)

From stdpp Require Import base option list strings.
From Stdlib Require Import ZArith QArith.

Open Scope Z_scope.
Open Scope string_scope.
Open Scope list_scope.

(** ** Python values *)

(** [VObj id] is a reference to the object number [id] of the store; two
    references denote the same object exactly when their numbers agree.
    [VFloat q] carries the decimal value of the literal as it is written
    in the source. *)
#[warnings="-register-all"]
Inductive Value : Type :=
| VNone
| VBool (b : bool)
| VInt (z : Z)
| VFloat (q : Q)
| VStr (s : string)
| VObj (id : nat)
| VList (items : list Value)
| VTuple (items : list Value).

(** Keyword arguments, and the [dict(k=v, ...)] records splatted into them. *)
Definition Kwargs : Type := list (string * Value).

(** ** Store, events, outcomes *)

Inductive Obj : Type :=
| Instance (cls : string) (args : list Value) (kwargs : Kwargs)
| Returned (event : nat) (path : list nat).

Inductive Event : Type :=
| EImport (module : string) (names : list string)
| ECall (callee : string) (args : list Value) (kwargs : Kwargs)
| EInvoke (self : Value) (method : string) (args : list Value) (kwargs : Kwargs).

Record Exn : Type := mkExn { exn_class : string; exn_msg : string }.

(** [stdout] holds what the statements of the notebook write; what the
    framework prints on its own account is not part of the state. *)
Record World : Type := mkWorld {
  heap : list Obj;
  log : list Event;
  stdout : list Value
}.

Definition w0 : World := mkWorld [] [] [].

Inductive Outcome (A : Type) : Type :=
| Done (a : A) (w : World)
| Raised (e : Exn) (w : World).
Arguments Done {A} a w.
Arguments Raised {A} e w.

(** The external framework, as far as the notebook can observe it: where
    it raises, and what its MNIST loader returns, a tuple of splits, each a
    tuple of [mnist_splits] arrays, followed by the class count. *)
Record Framework : Type := mkFramework {
  raises : nat -> Event -> option Exn;
  mnist_nclass : Z;
  mnist_splits : list nat
}.

(** ** The monad *)

Definition M (A : Type) : Type := World -> Outcome A.

#[global] Instance M_ret : MRet M := fun A a w => Done a w.

#[global] Instance M_bind : MBind M := fun A B k m w =>
  match m w with
  | Done a w' => k a w'
  | Raised e w' => Raised e w'
  end.

Definition raise {A} (e : Exn) : M A := fun w => Raised e w.

(** Python's [try: body except: handler]; the notebook never uses it. *)
Definition try_except {A} (body : M A) (handler : Exn -> M A) : M A :=
  fun w => match body w with
           | Done a w' => Done a w'
           | Raised e w' => handler e w'
           end.

(** ** Python-level helpers used by the cells *)

Definition keys (d : Kwargs) : list string := map fst d.

Definition kwarg (k : string) (d : Kwargs) : option Value :=
  snd <$> find (fun kv => String.eqb k (fst kv)) d.

Definition dict (items : Kwargs) : Kwargs := items.

Definition shares_key (kw d : Kwargs) : bool :=
  existsb (fun k => existsb (String.eqb k) (keys d)) (keys kw).

(** [f(k1=v1, ..., **d)]: a key given twice is a TypeError. *)
Definition splat (kw d : Kwargs) : M Kwargs :=
  if shares_key kw d
  then raise (mkExn "TypeError" "got multiple values for keyword argument")
  else mret (kw ++ d).

Definition alloc (o : Obj) : M Value :=
  fun w => Done (VObj (length (heap w)))
                (mkWorld (heap w ++ [o]) (log w) (stdout w)).

Definition write_stdout (v : Value) : M unit :=
  fun w => Done tt (mkWorld (heap w) (log w) (stdout w ++ [v])).

Definition newline : string := String (Ascii.ascii_of_nat 10) "".

(** One tuple of references per group of [sizes] consecutive objects, the
    first object at position [base] of the store. *)
Fixpoint split_values (base : nat) (sizes : list nat) : list Value :=
  match sizes with
  | [] => []
  | size :: rest =>
      VTuple (VObj <$> seq base size) :: split_values (base + size) rest
  end.

(** The arrays event [n] returned: array number [j] of split number [i]. *)
Fixpoint split_objects (n i : nat) (sizes : list nat) : list Obj :=
  match sizes with
  | [] => []
  | size :: rest =>
      ((fun j => Returned n [i; j]) <$> seq 0 size) ++ split_objects n (S i) rest
  end.

Definition alloc_splits (n : nat) (sizes : list nat) : M (list Value) :=
  fun w => Done (split_values (length (heap w)) sizes)
                (mkWorld (heap w ++ split_objects n 0 sizes) (log w) (stdout w)).

(** What the tuple unpacking of the second code cell raises. *)
Definition unpack_error : Exn :=
  mkExn "ValueError" "wrong number of values to unpack".

Section Notebook.

Variable fw : Framework.

(** One interaction with the framework: it is recorded, and the framework
    either lets it through or raises. The result is the event's number. *)
Definition attempt (ev : Event) : M nat :=
  fun w =>
    let n := length (log w) in
    let w' := mkWorld (heap w) (log w ++ [ev]) (stdout w) in
    match raises fw n ev with
    | Some e => Raised e w'
    | None => Done n w'
    end.

(** [from module import names] *)
Definition import_from (module : string) (names : list string) : M unit :=
  attempt (EImport module names) ;; mret tt.

(** [Cls(args, kwargs)]: instantiating a class yields a new object. *)
Definition new (cls : string) (args : list Value) (kwargs : Kwargs) : M Value :=
  attempt (ECall cls args kwargs) ;; alloc (Instance cls args kwargs).

(** [fn(args, kwargs)] for a framework function: an opaque result. *)
Definition call (fn : string) (args : list Value) (kwargs : Kwargs) : M Value :=
  n ← attempt (ECall fn args kwargs); alloc (Returned n []).

(** [obj.method(args, kwargs)] *)
Definition invoke (self : Value) (method : string)
    (args : list Value) (kwargs : Kwargs) : M Value :=
  n ← attempt (EInvoke self method args kwargs); alloc (Returned n []).

(** [load_mnist()]: the framework returns its splits, tuples of arrays that
    are opaque here, and the class count of the data set.  The documented
    result is [(X_train, y_train), (X_test, y_test), nclass]. *)
Definition load_mnist : M Value :=
  n ← attempt (ECall "load_mnist" [] []);
  splits ← alloc_splits n (mnist_splits fw);
  mret (VTuple (splits ++ [VInt (mnist_nclass fw)])).

(** The Python 2 statement [print obj]: [str(obj)] is written, then a
    newline. *)
Definition print (obj : Value) : M unit :=
  s ← invoke obj "__str__" [] [];
  write_stdout s ;;
  write_stdout (VStr newline).

(** ** Cell 1: imports *)
Definition cell_imports : M unit :=
  import_from "neon.callbacks.callbacks" ["Callbacks"] ;;
  import_from "neon.data" ["ArrayIterator"; "load_mnist"] ;;
  import_from "neon.initializers" ["Gaussian"] ;;
  import_from "neon.layers"
    ["GeneralizedCost"; "Affine"; "BranchNode"; "Multicost"; "SingleOutputTree"] ;;
  import_from "neon.models" ["Model"] ;;
  import_from "neon.optimizers" ["GradientDescentMomentum"] ;;
  import_from "neon.transforms" ["Rectlin"; "Logistic"; "Softmax"] ;;
  import_from "neon.transforms"
    ["CrossEntropyBinary"; "CrossEntropyMulti"; "Misclassification"] ;;
  import_from "neon.backends" ["gen_backend"].

(** ** Cell 3: backend and data *)
Record Data : Type := mkData {
  be : Value;
  X_train : Value; y_train : Value;
  X_test : Value; y_test : Value;
  nclass : Value;
  train_set : Value;
  valid_set : Value
}.

Definition cell_data : M Data :=
  be ← call "gen_backend" [] [("batch_size", VInt 128)];
  r ← load_mnist;
  match r with
  | VTuple [VTuple [X_train; y_train]; VTuple [X_test; y_test]; nclass] =>
      train_set ← new "ArrayIterator" [X_train; y_train] [("nclass", nclass)];
      valid_set ← new "ArrayIterator" [X_test; y_test] [("nclass", nclass)];
      mret (mkData be X_train y_train X_test y_test nclass train_set valid_set)
  | _ => raise unpack_error
  end.

(** ** Cell 5: the topology *)
Record Topology : Type := mkTopology {
  init_norm : Value;
  normrelu : Kwargs;
  normsigm : Kwargs;
  normsoft : Kwargs;
  b1 : Value;
  b2 : Value;
  p1 : list Value;
  p2 : list Value;
  p3 : list Value;
  alphas : list Value;
  model : Value
}.

(** [Affine(nout=n, name=s, **d)] *)
Definition Affine (nout : Z) (name : string) (d : Kwargs) : M Value :=
  kw ← splat [("nout", VInt nout); ("name", VStr name)] d;
  new "Affine" [] kw.

Definition cell_topology : M Topology :=
  init_norm ← new "Gaussian" [] [("loc", VFloat 0.0%Q); ("scale", VFloat 0.01%Q)];
  relu ← new "Rectlin" [] [];
  let normrelu := dict [("init", init_norm); ("activation", relu)] in
  sigm ← new "Logistic" [] [("shortcut", VBool true)];
  let normsigm := dict [("init", init_norm); ("activation", sigm)] in
  soft ← new "Softmax" [] [];
  let normsoft := dict [("init", init_norm); ("activation", soft)] in
  b1 ← new "BranchNode" [] [("name", VStr "b1")];
  b2 ← new "BranchNode" [] [("name", VStr "b2")];
  m_l1 ← Affine 100 "m_l1" normrelu;
  m_l2 ← Affine 32 "m_l2" normrelu;
  m_l3 ← Affine 16 "m_l3" normrelu;
  m_l4 ← Affine 10 "m_l4" normsoft;
  let p1 := [m_l1; b1; m_l2; m_l3; b2; m_l4] in
  b1_l1 ← Affine 16 "b1_l1" normrelu;
  b1_l2 ← Affine 10 "b1_l2" normsoft;
  let p2 := [b1; b1_l1; b1_l2] in
  b2_l1 ← Affine 16 "b2_l1" normrelu;
  b2_l2 ← Affine 10 "b2_l2" normsoft;
  let p3 := [b2; b2_l1; b2_l2] in
  let alphas := [VInt 1; VFloat 0.25%Q; VFloat 0.25%Q] in
  tree ← new "SingleOutputTree" [VList [VList p1; VList p2; VList p3]]
            [("alphas", VList alphas)];
  model ← new "Model" [] [("layers", tree)];
  mret (mkTopology init_norm normrelu normsigm normsoft b1 b2 p1 p2 p3 alphas model).

(** ** Cell 7: the cost aggregate *)
Definition cell_cost : M Value :=
  f1 ← new "CrossEntropyMulti" [] [];
  c1 ← new "GeneralizedCost" [] [("costfunc", f1)];
  f2 ← new "CrossEntropyMulti" [] [];
  c2 ← new "GeneralizedCost" [] [("costfunc", f2)];
  f3 ← new "CrossEntropyMulti" [] [];
  c3 ← new "GeneralizedCost" [] [("costfunc", f3)];
  new "Multicost" [] [("costs", VList [c1; c2; c3])].

(** ** Cell 9: initialize and print *)
Definition cell_initialize (model train_set cost : Value) : M unit :=
  invoke model "initialize" [train_set; cost] [] ;;
  print model.

(** ** Cell 11: optimizer, callbacks, fit *)
Record Training : Type := mkTraining {
  optimizer : Value;
  callbacks : Value
}.

Definition cell_fit (model train_set valid_set cost : Value) : M Training :=
  optimizer ← new "GradientDescentMomentum" [VFloat 0.1%Q]
                 [("momentum_coef", VFloat 0.9%Q)];
  callbacks ← new "Callbacks" [model] [("eval_set", valid_set); ("eval_freq", VInt 1)];
  invoke model "fit" [train_set]
    [("optimizer", optimizer); ("num_epochs", VInt 10);
     ("cost", cost); ("callbacks", callbacks)] ;;
  mret (mkTraining optimizer callbacks).

(** ** The whole notebook: the names bound when the last cell has run *)
Record Globals : Type := mkGlobals {
  data : Data;
  topology : Topology;
  cost : Value;
  training : Training
}.

Definition notebook : M Globals :=
  cell_imports ;;
  d ← cell_data;
  t ← cell_topology;
  cost ← cell_cost;
  cell_initialize (model t) (train_set d) cost ;;
  tr ← cell_fit (model t) (train_set d) (valid_set d) cost;
  mret (mkGlobals d t cost tr).

End Notebook.

(** ** Running the notebook *)

Definition run (fw : Framework) : Outcome Globals := notebook fw w0.

Definition world_of {A} (o : Outcome A) : World :=
  match o with Done _ w => w | Raised _ w => w end.

(** A framework that never raises, over a data set of [n] classes in two
    splits of two arrays. *)
Definition quiet (n : Z) : Framework := mkFramework (fun _ _ => None) n [2; 2]%nat.

(** A framework that raises [e] at event number [k] and nowhere else. *)
Definition raising_at (k : nat) (e : Exn) (n : Z) : Framework :=
  mkFramework (fun i _ => if Nat.eqb i k then Some e else None) n [2; 2]%nat.

Definition shape_error : Exn := mkExn "ValueError" "shape mismatch".

(** A framework over ten classes whose [initialize] raises a shape error:
    [model.initialize(train_set, cost)] is event number 36. *)
Definition fails_to_initialize : Framework := raising_at 36 shape_error 10.

Definition initialize_event : Event :=
  EInvoke (VObj 22) "initialize" [VObj 5; VObj 29] [].

(** The events the notebook goes through when nothing raises. *)
Definition script (n : Z) : list Event := log (world_of (run (quiet n))).

(** The first event of [evs], numbered from [k], at which the framework raises. *)
Fixpoint first_raise (fw : Framework) (k : nat) (evs : list Event) : option (nat * Exn) :=
  match evs with
  | [] => None
  | ev :: rest =>
      match raises fw k ev with
      | Some e => Some (k, e)
      | None => first_raise fw (S k) rest
      end
  end.

(** ** Reading the store *)

Definition deref (w : World) (v : Value) : option Obj :=
  match v with
  | VObj id => heap w !! id
  | _ => None
  end.

Definition class_of (w : World) (v : Value) : option string :=
  match deref w v with
  | Some (Instance cls _ _) => Some cls
  | _ => None
  end.

(** The keyword argument [k] the object was built with. *)
Definition attr (w : World) (v : Value) (k : string) : option Value :=
  match deref w v with
  | Some (Instance _ _ kw) => kwarg k kw
  | _ => None
  end.

Definition positional (w : World) (v : Value) : option (list Value) :=
  match deref w v with
  | Some (Instance _ args _) => Some args
  | _ => None
  end.

(** Python's [a is b] on object references. *)
Definition same_object (a b : Value) : bool :=
  match a, b with
  | VObj i, VObj j => Nat.eqb i j
  | _, _ => false
  end.

Definition has_class (w : World) (cls : string) (v : Value) : bool :=
  match class_of w v with
  | Some c => String.eqb c cls
  | None => false
  end.

Definition is_marker (w : World) : Value -> bool := has_class w "BranchNode".
Definition is_layer (w : World) : Value -> bool := has_class w "Affine".

Definition nout (w : World) (v : Value) : option Z :=
  match attr w v "nout" with
  | Some (VInt z) => Some z
  | _ => None
  end.

Definition layer_name (w : World) (v : Value) : option string :=
  match attr w v "name" with
  | Some (VStr s) => Some s
  | _ => None
  end.

(** The class of the activation object a layer was built with. *)
Definition activation (w : World) (v : Value) : option string :=
  a ← attr w v "activation"; class_of w a.

Definition as_list (v : Value) : option (list Value) :=
  match v with
  | VList l => Some l
  | _ => None
  end.

Definition number (v : Value) : option Q :=
  match v with
  | VInt z => Some (inject_Z z)
  | VFloat q => Some q
  | _ => None
  end.

(** The paths and the weights the tree under [model] was built from. *)
Definition tree_paths (w : World) (model : Value) : option (list (list Value)) :=
  t ← attr w model "layers";
  if has_class w "SingleOutputTree" t
  then args ← positional w t;
       match args with
       | [VList ps] => mapM as_list ps
       | _ => None
       end
  else None.

Definition tree_alphas (w : World) (model : Value) : option (list Value) :=
  t ← attr w model "layers";
  if has_class w "SingleOutputTree" t
  then a ← attr w t "alphas"; as_list a
  else None.

(** The per-leaf cost functions the aggregate was built from. *)
Definition cost_functions (w : World) (cost : Value) : option (list Value) :=
  if has_class w "Multicost" cost
  then c ← attr w cost "costs"; as_list c
  else None.

(** ** Paths *)

Definition layers (w : World) (p : list Value) : list Value :=
  List.filter (is_layer w) p.

Definition markers (w : World) (p : list Value) : list Value :=
  List.filter (is_marker w) p.

Definition widths (w : World) (p : list Value) : list Z := omap (nout w) p.

Definition names (w : World) (p : list Value) : list string := omap (layer_name w) p.

Definition terminal (p : list Value) : option Value := last p.

Definition occurrences (b : Value) (p : list Value) : nat :=
  length (List.filter (same_object b) p).

Definition contains (p : list Value) (b : Value) : bool :=
  existsb (same_object b) p.

(** The number of paths that reference the object [b]. *)
Definition referencing (paths : list (list Value)) (b : Value) : nat :=
  length (List.filter (fun p => contains p b) paths).

(** ** The picture of the first cell

    The drawing names, for every layer, the node it reads from; the forks
    sit above [m_l1] and above [m_l3]. *)
Definition diagram : list (string * string) :=
  [("m_l1", "data"); ("m_l2", "m_l1"); ("m_l3", "m_l2"); ("m_l4", "m_l3");
   ("b1_l1", "m_l1"); ("b1_l2", "b1_l1");
   ("b2_l1", "m_l3"); ("b2_l2", "b2_l1")].

Definition diagram_input (name : string) : option string :=
  snd <$> find (fun e => String.eqb name (fst e)) diagram.

(** The trunk layer whose output the marker [b] hands on: the last layer
    listed before [b] in the trunk. *)
Fixpoint feeding (w : World) (prev : option Value) (trunk : list Value) (b : Value)
    : option Value :=
  match trunk with
  | [] => None
  | x :: rest =>
      if same_object b x then prev
      else feeding w (if is_layer w x then Some x else prev) rest b
  end.

(** [x] is meant to consume the output of marker [b]: in the picture, [x]
    reads from the layer that feeds [b]. *)
Definition consumes (w : World) (trunk : list Value) (b x : Value) : bool :=
  match feeding w None trunk b, layer_name w x with
  | Some src, Some nx =>
      match layer_name w src, diagram_input nx with
      | Some ns, Some ni => String.eqb ns ni
      | _, _ => false
      end
  | _, _ => false
  end.

(** ** Object references inside values, events and objects *)

Fixpoint refs (v : Value) : list nat :=
  match v with
  | VObj id => [id]
  | VList l => flat_map refs l
  | VTuple l => flat_map refs l
  | _ => []
  end.

Definition kwargs_refs (kw : Kwargs) : list nat :=
  flat_map (fun kv => refs (snd kv)) kw.

Definition event_refs (ev : Event) : list nat :=
  match ev with
  | EImport _ _ => []
  | ECall _ args kw => flat_map refs args ++ kwargs_refs kw
  | EInvoke self _ args kw => refs self ++ flat_map refs args ++ kwargs_refs kw
  end.

Definition obj_refs (o : Obj) : list nat :=
  match o with
  | Instance _ args kw => flat_map refs args ++ kwargs_refs kw
  | Returned _ _ => []
  end.

(** Every value a global name of the notebook holds. *)
Definition globals_values (g : Globals) : list Value :=
  let d := data g in
  let t := topology g in
  [be d; X_train d; y_train d; X_test d; y_test d; nclass d; train_set d; valid_set d;
   init_norm t; b1 t; b2 t; VList (p1 t); VList (p2 t); VList (p3 t);
   VList (alphas t); model t; cost g; optimizer (training g); callbacks (training g)]
  ++ map snd (normrelu t ++ normsigm t ++ normsoft t).

(** The object [id] is mentioned nowhere: not by a name, not in the
    arguments of an event, not by another object, not in the output. *)
Definition unreferenced (g : Globals) (w : World) (id : nat) : Prop :=
  (id ∉ flat_map refs (globals_values g)) /\
  (id ∉ flat_map event_refs (log w)) /\
  (id ∉ flat_map obj_refs (heap w)) /\
  (id ∉ flat_map refs (stdout w)).

(** The object that event number [k] returned. *)
Definition returned_by (w : World) (k : nat) : option nat :=
  fst <$> list_find (fun o => match o with
                              | Returned k' [] => Nat.eqb k' k
                              | _ => false
                              end = true) (heap w).

(** ** Shape resolution *)

Inductive InitError : Type :=
| MissingBranch (b : Value)
| NoInput (v : Value)
| NotALayer (v : Value)
| CostCount (leaves costs : nat)
| ShapeMismatch (leaf target : Z)
| EmptyShape (width : Z)
| Malformed.

(** Modelled from the spec: the framework's [Model.initialize], which the
    repository calls and does not contain.  The spec says it binds the
    model to the data set to resolve the per-layer shapes; that a layer
    descriptor declares its output width; that a branch marker carries no
    data and only splices the paths that list it; and it names a missing
    branch reference, a shape mismatch and a leaf count different from the
    cost count as the errors.  [resolve_path] walks one path: a layer needs
    an input and emits its declared width, which must be positive, a marker
    met with an input records it, a marker that opens a path resumes from
    the recorded one. *)
Fixpoint resolve_path (w : World) (known : list (nat * Z)) (cur : option Z)
    (p : list Value) : InitError + (list (nat * Z) * option Z) :=
  match p with
  | [] => inr (known, cur)
  | x :: rest =>
      if is_marker w x then
        match x, cur with
        | VObj id, Some wd => resolve_path w ((id, wd) :: known) cur rest
        | VObj id, None =>
            match snd <$> find (fun e => Nat.eqb id (fst e)) known with
            | Some wd => resolve_path w known (Some wd) rest
            | None => inl (MissingBranch x)
            end
        | _, _ => inl Malformed
        end
      else if is_layer w x then
        match cur, nout w x with
        | Some _, Some n =>
            if Z.ltb 0 n then resolve_path w known (Some n) rest
            else inl (EmptyShape n)
        | None, _ => inl (NoInput x)
        | _, None => inl Malformed
        end
      else inl (NotALayer x)
  end.

(** Modelled from the spec: the trunk is resolved from the input width,
    every later path from the marker that opens it; the result is the width
    each leaf emits, in path order. *)
Fixpoint resolve_paths (w : World) (known : list (nat * Z)) (input : option Z)
    (paths : list (list Value)) : InitError + list Z :=
  match paths with
  | [] => inr []
  | p :: rest =>
      match resolve_path w known input p with
      | inl e => inl e
      | inr (known', Some leaf) =>
          match resolve_paths w known' None rest with
          | inl e => inl e
          | inr leaves => inr (leaf :: leaves)
          end
      | inr (_, None) => inl Malformed
      end
  end.

(** Modelled from the spec: [model.initialize(train_set, cost)] over an
    input of width [input], which must be positive.  There must be one cost
    per leaf, and every leaf must be as wide as the targets of the
    iterator, which are [nclass] wide. *)
Definition initialize (w : World) (input : Z) (model train_set cost : Value)
    : InitError + list Z :=
  match tree_paths w model, cost_functions w cost, attr w train_set "nclass" with
  | Some paths, Some costs, Some (VInt target) =>
      if negb (Z.ltb 0 input) then inl (EmptyShape input)
      else
      match resolve_paths w [] (Some input) paths with
      | inl e => inl e
      | inr leaves =>
          if negb (Nat.eqb (length leaves) (length costs))
          then inl (CostCount (length leaves) (length costs))
          else match find (fun leaf => negb (Z.eqb leaf target)) leaves with
               | Some leaf => inl (ShapeMismatch leaf target)
               | None => inr leaves
               end
      end
  | _, _, _ => inl Malformed
  end.

(** ** The statements about a completed run

    [g] holds the names the notebook has bound when its last cell has run,
    [w] the store, the events and the output at that point. *)

Definition is_call (callee : string) (ev : Event) : bool :=
  match ev with
  | ECall c _ _ => String.eqb c callee
  | _ => false
  end.

Definition is_invoke (method : string) (ev : Event) : bool :=
  match ev with
  | EInvoke _ m _ _ => String.eqb m method
  | _ => false
  end.

(** The objects of class [cls] in the store. *)
Definition instances (w : World) (cls : string) : list Obj :=
  List.filter (fun o => match o with
                        | Instance c _ _ => String.eqb c cls
                        | Returned _ _ => false
                        end) (heap w).

(** Modelled from the spec: what the framework's [initialize] raises for a
    result of the shape resolution. *)
Definition initialize_outcome (r : InitError + list Z) : option Exn :=
  match r with
  | inl _ => Some shape_error
  | inr _ => None
  end.

(** The state in which the notebook makes its event number [k], when
    nothing has raised before. *)
Definition state_at (n : Z) (k : nat) : World :=
  let w := world_of (run (raising_at k shape_error n)) in
  mkWorld (heap w) (take k (log w)) (stdout w).

(** Modelled from the spec: a framework whose only source of exceptions is
    the shape resolution of [initialize]; it raises in no other event, and
    in [initialize] exactly when the resolution over the objects built so
    far, for an input of width [input], reports an error. *)
Definition resolves_shapes (fw : Framework) (input : Z) : Prop :=
  (forall k ev, is_invoke "initialize" ev = false -> raises fw k ev = None) /\
  (forall k self train_set cost,
      raises fw k (EInvoke self "initialize" [train_set; cost] []) =
      initialize_outcome
        (initialize (state_at (mnist_nclass fw) k) input self train_set cost)).

(** Modelled from the spec: the framework of [resolves_shapes] over a data
    set of [n] classes in two splits of two arrays. *)
Definition shape_resolving (input n : Z) : Framework :=
  mkFramework
    (fun k ev =>
       match ev with
       | EInvoke self method [train_set; cost] [] =>
           if String.eqb method "initialize"
           then initialize_outcome
                  (initialize (state_at n k) input self train_set cost)
           else None
       | _ => None
       end)
    n [2; 2]%nat.

(** The path ends in a computation layer. *)
Definition leaf_terminal (w : World) (p : list Value) : Prop :=
  exists l, terminal p = Some l /\ is_layer w l = true.

Definition terminal_layers (paths : list (list Value)) : list Value :=
  omap terminal paths.

(** The part of [p] listed before the object [b]. *)
Fixpoint before (b : Value) (p : list Value) : list Value :=
  match p with
  | [] => []
  | x :: rest => if same_object b x then [] else x :: before b rest
  end.

(** The layers below [name] in the picture, nearest first, down to the data. *)
Fixpoint upstream (fuel : nat) (name : string) : list string :=
  match fuel with
  | O => []
  | S fuel' =>
      match diagram_input name with
      | Some src => if String.eqb src "data" then [] else src :: upstream fuel' src
      | None => []
      end
  end.

Definition counts_agree (g : Globals) (w : World) : Prop :=
  let t := topology g in
  exists paths als costs,
    tree_paths w (model t) = Some paths /\
    tree_alphas w (model t) = Some als /\
    cost_functions w (cost g) = Some costs /\
    ECall "SingleOutputTree" [VList (VList <$> paths)] [("alphas", VList als)] ∈ log w /\
    ECall "Multicost" [] [("costs", VList costs)] ∈ log w /\
    paths = [p1 t; p2 t; p3 t] /\ als = alphas t /\
    Forall (leaf_terminal w) paths /\
    length paths = 3%nat /\ length costs = 3%nat /\ length als = 3%nat.

Definition mnist_topology (g : Globals) (w : World) : Prop :=
  let d := data g in
  let t := topology g in
  let paths := [p1 t; p2 t; p3 t] in
  nclass d = VInt 10 /\
  widths w (p1 t) = [100; 32; 16; 10] /\
  widths w (p2 t) = [16; 10] /\
  widths w (p3 t) = [16; 10] /\
  tree_paths w (model t) = Some paths /\
  EInvoke (model t) "initialize" [train_set d; cost g] [] ∈ log w /\
  (forall input, 0 < input ->
     initialize w input (model t) (train_set d) (cost g) = inr [10; 10; 10]) /\
  length (terminal_layers paths) = 3%nat /\
  NoDup (flat_map refs (terminal_layers paths)) /\
  length (flat_map refs (terminal_layers paths)) = 3%nat /\
  Forall (fun l => is_layer w l = true /\ nout w l = Some 10 /\
                   VInt <$> nout w l = Some (nclass d))
         (terminal_layers paths).

Definition ordering_invariant (g : Globals) (w : World) : Prop :=
  let t := topology g in
  let paths := [p1 t; p2 t; p3 t] in
  is_marker w (b1 t) = true /\ is_marker w (b2 t) = true /\
  referencing paths (b1 t) = 2%nat /\ referencing paths (b2 t) = 2%nat /\
  (forall p b x i j,
      p ∈ paths -> is_marker w b = true -> (1 < referencing paths b)%nat ->
      p !! i = Some b -> p !! j = Some x ->
      consumes w (p1 t) b x = true -> (i < j)%nat) /\
  (forall p b i,
      p ∈ paths -> is_marker w b = true -> p !! i = Some b ->
      exists x, p !! S i = Some x /\ is_layer w x = true /\
                consumes w (p1 t) b x = true) /\
  (forall p b i,
      p ∈ [p2 t; p3 t] -> is_marker w b = true -> p !! i = Some b -> i = 0%nat).

Definition trunk_first (g : Globals) (w : World) : Prop :=
  let t := topology g in
  tree_paths w (model t) = Some [p1 t; p2 t; p3 t] /\
  (exists l n, head (p1 t) = Some l /\ is_layer w l = true /\
               layer_name w l = Some n /\ diagram_input n = Some "data") /\
  names w (layers w (p1 t)) = ["m_l1"; "m_l2"; "m_l3"; "m_l4"] /\
  head (p2 t) = Some (b1 t) /\ head (p3 t) = Some (b2 t) /\
  Forall (fun p => exists b l n,
            head p = Some b /\ is_marker w b = true /\
            contains (p1 t) b = true /\
            p !! 1%nat = Some l /\ layer_name w l = Some n /\
            names w (layers w (before b (p1 t))) = rev (upstream (length diagram) n) /\
            Forall (fun x => contains (p1 t) x = false) (tail p))
         [p2 t; p3 t].

Definition constant_weights (g : Globals) (w : World) : Prop :=
  let t := topology g in
  alphas t = [VInt 1; VFloat 0.25%Q; VFloat 0.25%Q] /\
  flat_map refs (alphas t) = [] /\
  tree_alphas w (model t) = Some (alphas t) /\
  (exists paths, tree_paths w (model t) = Some paths /\
                 length (alphas t) = length paths) /\
  Forall (fun a => exists q, number a = Some q /\ (0 <= q)%Q) (alphas t).

Definition training_call (g : Globals) (w : World) : Prop :=
  let d := data g in
  let t := topology g in
  let tr := training g in
  let fit := EInvoke (model t) "fit" [train_set d]
               [("optimizer", optimizer tr); ("num_epochs", VInt 10);
                ("cost", cost g); ("callbacks", callbacks tr)] in
  last (log w) = Some fit /\
  length (List.filter (is_invoke "fit") (log w)) = 1%nat /\
  deref w (optimizer tr) =
    Some (Instance "GradientDescentMomentum" [VFloat 0.1%Q]
            [("momentum_coef", VFloat 0.9%Q)]) /\
  deref w (callbacks tr) =
    Some (Instance "Callbacks" [model t]
            [("eval_set", valid_set d); ("eval_freq", VInt 1)]) /\
  deref w (valid_set d) =
    Some (Instance "ArrayIterator" [X_test d; y_test d] [("nclass", nclass d)]) /\
  deref w (train_set d) =
    Some (Instance "ArrayIterator" [X_train d; y_train d] [("nclass", nclass d)]) /\
  (exists k, log w !! k = Some (ECall "load_mnist" [] []) /\
             deref w (X_train d) = Some (Returned k [0; 0]%nat) /\
             deref w (y_train d) = Some (Returned k [0; 1]%nat) /\
             deref w (X_test d) = Some (Returned k [1; 0]%nat) /\
             deref w (y_test d) = Some (Returned k [1; 1]%nat)) /\
  same_object (valid_set d) (train_set d) = false /\
  same_object (X_test d) (X_train d) = false /\
  same_object (y_test d) (y_train d) = false /\
  (exists k r, log w !! k = Some fit /\ returned_by w k = Some r /\
               unreferenced g w r).

Definition activations_by_position (g : Globals) (w : World) : Prop :=
  let t := topology g in
  let paths := [p1 t; p2 t; p3 t] in
  tree_paths w (model t) = Some paths /\
  Forall (Forall (fun x => is_marker w x = true \/ is_layer w x = true)) paths /\
  length (flat_map (layers w) paths) = 8%nat /\
  Forall (fun p => forall i l,
            p !! i = Some l -> is_layer w l = true ->
            activation w l =
              Some (if Nat.eqb (S i) (length p) then "Softmax" else "Rectlin"))
         paths /\
  Forall (leaf_terminal w) paths /\
  length (instances w "Affine") = length (flat_map (layers w) paths) /\
  exists id,
    kwarg "activation" (normsigm t) = Some (VObj id) /\
    kwarg "init" (normsigm t) = Some (init_norm t) /\
    deref w (VObj id) = Some (Instance "Logistic" [] [("shortcut", VBool true)]) /\
    (id ∉ flat_map obj_refs (heap w)) /\
    (id ∉ flat_map event_refs (log w)) /\
    Forall (fun p => Forall (fun l => activation w l <> Some "Logistic") p) paths.

Definition shared_initializer (g : Globals) (w : World) : Prop :=
  let t := topology g in
  let paths := [p1 t; p2 t; p3 t] in
  deref w (init_norm t) =
    Some (Instance "Gaussian" [] [("loc", VFloat 0.0%Q); ("scale", VFloat 0.01%Q)]) /\
  length (List.filter (is_call "Gaussian") (log w)) = 1%nat /\
  length (instances w "Gaussian") = 1%nat /\
  kwarg "init" (normrelu t) = Some (init_norm t) /\
  kwarg "init" (normsigm t) = Some (init_norm t) /\
  kwarg "init" (normsoft t) = Some (init_norm t) /\
  tree_paths w (model t) = Some paths /\
  Forall (Forall (fun x => is_marker w x = true \/ is_layer w x = true)) paths /\
  Forall (leaf_terminal w) paths /\
  length (flat_map (layers w) paths) = 8%nat /\
  NoDup (flat_map refs (flat_map (layers w) paths)) /\
  Forall (fun p => Forall (fun l => is_layer w l = true ->
                                    attr w l "init" = Some (init_norm t)) p)
         paths /\
  length (instances w "Affine") = length (flat_map (layers w) paths) /\
  Forall (fun o => forall cls args kw,
            o = Instance cls args kw -> cls = "Affine" ->
            kwarg "init" kw = Some (init_norm t))
         (heap w).

Definition markers_and_costs (g : Globals) (w : World) : Prop :=
  let t := topology g in
  let paths := [p1 t; p2 t; p3 t] in
  referencing paths (b1 t) = 2%nat /\ referencing paths (b2 t) = 2%nat /\
  contains (p1 t) (b1 t) = true /\ contains (p2 t) (b1 t) = true /\
  contains (p3 t) (b1 t) = false /\
  contains (p1 t) (b2 t) = true /\ contains (p2 t) (b2 t) = false /\
  contains (p3 t) (b2 t) = true /\
  (forall b, is_marker w b = true -> b = b1 t \/ b = b2 t) /\
  (forall b, is_marker w b = true ->
             contains (p2 t) b && contains (p3 t) b = false) /\
  (forall b p, is_marker w b = true -> p ∈ paths -> (occurrences b p <= 1)%nat) /\
  exists costs,
    cost_functions w (cost g) = Some costs /\ length costs = 3%nat /\
    Forall (fun c => class_of w c = Some "GeneralizedCost" /\
                     exists f, attr w c "costfunc" = Some f /\
                               class_of w f = Some "CrossEntropyMulti")
           costs.

(** ** Further readings of the events and the store *)

(** The state the undisturbed run ends in. *)
Definition final (n : Z) : World := world_of (run (quiet n)).

(** Every call names something an earlier import has bound. *)
Fixpoint calls_imported (imported : list string) (evs : list Event) : bool :=
  match evs with
  | [] => true
  | EImport _ names :: rest => calls_imported (names ++ imported) rest
  | ECall c _ _ :: rest =>
      existsb (String.eqb c) imported && calls_imported imported rest
  | EInvoke _ _ _ _ :: rest => calls_imported imported rest
  end.

Definition imports_precede_calls (evs : list Event) : Prop :=
  forall k c args kw,
    evs !! k = Some (ECall c args kw) ->
    exists i m names, (i < k)%nat /\ evs !! i = Some (EImport m names) /\ c ∈ names.

Definition imported_names (evs : list Event) : list string :=
  flat_map (fun ev => match ev with EImport _ names => names | _ => [] end) evs.

Definition called_names (evs : list Event) : list string :=
  flat_map (fun ev => match ev with ECall c _ _ => [c] | _ => [] end) evs.

Definition unused_imports (evs : list Event) : list string :=
  List.filter (fun s => negb (existsb (String.eqb s) (called_names evs)))
              (imported_names evs).

(** The number of objects the framework has handed back once the events
    [evs] have succeeded: one for a call or a method invocation, the four
    arrays of the two splits for [load_mnist()], none for an import. *)
Definition objects_returned (evs : list Event) : nat :=
  sum_list_with
    (fun ev => match ev with
               | EImport _ _ => 0
               | ECall c _ _ => if String.eqb c "load_mnist" then 4 else 1
               | EInvoke _ _ _ _ => 1
               end)%nat evs.

(** The number of values the notebook has written once the events [evs]
    have succeeded: the text and the newline of every completed print. *)
Definition values_printed (evs : list Event) : nat :=
  (2 * length (List.filter (is_invoke "__str__") evs))%nat.

(** The run has stopped in the state [w] at event number [k]: that event is
    the last one attempted, and the store and the output are those the
    events before it have produced in the undisturbed run. *)
Definition stopped_at (n : Z) (k : nat) (w : World) : Prop :=
  log w = take (S k) (script n) /\
  heap w = take (objects_returned (take k (script n))) (heap (final n)) /\
  stdout w = take (values_printed (take k (script n))) (stdout (final n)).

(** The costs of the picture, left to right by number, and the layer each
    one sits on. *)
Definition diagram_costs : list (string * string) :=
  [("cost1", "m_l4"); ("cost2", "b1_l2"); ("cost3", "b2_l2")].

(** The node the element at position [i] of [p] reads from: the nearest
    layer listed before it in [p]; behind the marker that opens a branch
    path, the trunk layer that feeds the marker; at the start of the trunk,
    the data. *)
Definition reads_from (w : World) (trunk p : list Value) (i : nat) : option string :=
  match last (layers w (take i p)) with
  | Some l => layer_name w l
  | None =>
      match head p with
      | Some h =>
          if is_marker w h
          then l ← feeding w None trunk h; layer_name w l
          else Some "data"
      | None => None
      end
  end.

Definition picture_realised (g : Globals) (w : World) : Prop :=
  let t := topology g in
  let paths := [p1 t; p2 t; p3 t] in
  names w (flat_map (layers w) paths) = map fst diagram /\
  NoDup (map fst diagram) /\
  NoDup (flat_map refs (flat_map (layers w) paths)) /\
  length (flat_map refs (flat_map (layers w) paths)) = length diagram /\
  length (instances w "Affine") = length diagram /\
  (forall p i l n,
      p ∈ paths -> p !! i = Some l -> is_layer w l = true ->
      layer_name w l = Some n ->
      reads_from w (p1 t) p i = diagram_input n) /\
  omap (fun p => l ← terminal p; layer_name w l) paths = map snd diagram_costs.

Definition class_count_flows (fw : Framework) (g : Globals) (w : World) : Prop :=
  let d := data g in
  let t := topology g in
  let leaves := terminal_layers [p1 t; p2 t; p3 t] in
  nclass d = VInt (mnist_nclass fw) /\
  attr w (train_set d) "nclass" = Some (nclass d) /\
  attr w (valid_set d) "nclass" = Some (nclass d) /\
  Forall (fun l => nout w l = Some 10) leaves /\
  (Forall (fun l => VInt <$> nout w l = Some (nclass d)) leaves <->
   mnist_nclass fw = 10).

Definition sharing (g : Globals) (w : World) : Prop :=
  let t := topology g in
  let paths := [p1 t; p2 t; p3 t] in
  Forall (fun p => forall i l,
            p !! i = Some l -> is_layer w l = true ->
            attr w l "activation" =
              kwarg "activation"
                (if Nat.eqb (S i) (length p) then normsoft t else normrelu t))
         paths /\
  (exists relu soft,
      kwarg "activation" (normrelu t) = Some relu /\
      kwarg "activation" (normsoft t) = Some soft /\
      class_of w relu = Some "Rectlin" /\
      class_of w soft = Some "Softmax" /\
      same_object relu soft = false) /\
  length (instances w "Rectlin") = 1%nat /\
  length (instances w "Softmax") = 1%nat /\
  length (flat_map (layers w) paths) = 8%nat /\
  NoDup (flat_map refs (flat_map (layers w) paths)) /\
  exists costs,
    cost_functions w (cost g) = Some costs /\
    NoDup (flat_map refs costs) /\
    NoDup (flat_map refs (omap (fun c => attr w c "costfunc") costs)) /\
    length (omap (fun c => attr w c "costfunc") costs) = 3%nat /\
    length (instances w "CrossEntropyMulti") = 3%nat.

Definition same_objects_throughout (g : Globals) (w : World) : Prop :=
  let d := data g in
  let t := topology g in
  let tr := training g in
  exists pre r,
    log w = (pre ++
      [EInvoke (model t) "initialize" [train_set d; cost g] [];
       EInvoke (model t) "__str__" [] [];
       ECall "GradientDescentMomentum" [VFloat 0.1%Q] [("momentum_coef", VFloat 0.9%Q)];
       ECall "Callbacks" [model t] [("eval_set", valid_set d); ("eval_freq", VInt 1)];
       EInvoke (model t) "fit" [train_set d]
         [("optimizer", optimizer tr); ("num_epochs", VInt 10);
          ("cost", cost g); ("callbacks", callbacks tr)]])%list /\
    Forall (fun ev => match ev with EInvoke _ _ _ _ => False | _ => True end) pre /\
    class_of w (model t) = Some "Model" /\
    class_of w (cost g) = Some "Multicost" /\
    class_of w (train_set d) = Some "ArrayIterator" /\
    stdout w = [VObj r; VStr newline] /\
    returned_by w (S (length pre)) = Some r.

(** * Properties *)

(** ** The first event at which the framework raises *)

Lemma first_raise_quiet (fw : Framework) (evs : list Event) (k : nat) :
  (forall i ev, raises fw i ev = None) -> first_raise fw k evs = None.
Proof.
  intros Hq. revert k.
  induction evs as [|ev rest IH]; intros k; simpl; [reflexivity|].
  rewrite Hq. apply IH.
Qed.

Lemma first_raise_at (fw : Framework) (evs : list Event) (k j : nat) (ev : Event) (e : Exn) :
  evs !! j = Some ev ->
  (forall i ev', (i < j)%nat -> evs !! i = Some ev' -> raises fw (k + i) ev' = None) ->
  raises fw (k + j) ev = Some e ->
  first_raise fw k evs = Some ((k + j)%nat, e).
Proof.
  revert k j.
  induction evs as [|x rest IH]; intros k j Hj Hbefore Hat; [discriminate|].
  destruct j as [|j]; simpl in *.
  - injection Hj as ->. rewrite Nat.add_0_r in Hat. rewrite Hat.
    by rewrite Nat.add_0_r.
  - rewrite <- (Nat.add_0_r k) at 1.
    rewrite (Hbefore 0%nat x); [|lia|reflexivity].
    replace (k + S j)%nat with (S k + j)%nat in * by lia.
    apply IH; [assumption| |assumption].
    intros i ev' Hi Hev'.
    replace (S k + i)%nat with (k + S i)%nat by lia.
    apply Hbefore; [lia|assumption].
Qed.

Lemma first_raise_none_iff (fw : Framework) (evs : list Event) (k : nat) :
  first_raise fw k evs = None <->
  (forall j ev, evs !! j = Some ev -> raises fw (k + j) ev = None).
Proof.
  revert k. induction evs as [|x rest IH]; intros k; simpl.
  - split; [intros _ j ev Hj; discriminate Hj|reflexivity].
  - destruct (raises fw k x) as [e|] eqn:Hx.
    + split; [discriminate|]. intros H.
      specialize (H 0%nat x eq_refl). rewrite Nat.add_0_r in H. congruence.
    + rewrite IH. split.
      * intros H [|j] ev Hj; simpl in Hj.
        -- injection Hj as <-. by rewrite Nat.add_0_r.
        -- replace (k + S j)%nat with (S k + j)%nat by lia. by apply H.
      * intros H j ev Hj.
        replace (S k + j)%nat with (k + S j)%nat by lia. by apply H.
Qed.

Lemma first_raise_some (fw : Framework) (evs : list Event) (k i : nat) (e : Exn) :
  first_raise fw k evs = Some (i, e) ->
  exists j ev,
    i = (k + j)%nat /\ evs !! j = Some ev /\ raises fw i ev = Some e /\
    (forall j' ev', (j' < j)%nat -> evs !! j' = Some ev' ->
                    raises fw (k + j') ev' = None).
Proof.
  revert k. induction evs as [|x rest IH]; intros k; simpl; [discriminate|].
  destruct (raises fw k x) as [e'|] eqn:Hx.
  - intros [= <- <-]. exists 0%nat, x. rewrite Nat.add_0_r.
    split; [reflexivity|]. split; [reflexivity|]. split; [exact Hx|].
    intros j' ev' Hlt. lia.
  - intros H. destruct (IH _ H) as (j & ev & -> & Hj & Hat & Hbefore).
    exists (S j), ev. split; [lia|]. split; [exact Hj|]. split; [exact Hat|].
    intros [|j'] ev' Hlt Hev'; simpl in Hev'.
    + injection Hev' as <-. by rewrite Nat.add_0_r.
    + replace (k + S j')%nat with (S k + j')%nat by lia.
      apply Hbefore; [lia|exact Hev'].
Qed.

Lemma first_raise_take (fw : Framework) (evs : list Event) (k m : nat) :
  first_raise fw k (take m evs) =
  match first_raise fw k evs with
  | Some (i, e) => if decide (i < k + m)%nat then Some (i, e) else None
  | None => None
  end.
Proof.
  revert k m. induction evs as [|x rest IH]; intros k m.
  - by rewrite take_nil.
  - destruct m as [|m]; simpl.
    + destruct (raises fw k x) as [e|].
      * rewrite decide_False; [reflexivity|lia].
      * destruct (first_raise fw (S k) rest) as [[i e]|] eqn:E; [|reflexivity].
        apply first_raise_some in E as (j & _ & -> & _).
        rewrite decide_False; [reflexivity|lia].
    + destruct (raises fw k x) as [e|].
      * rewrite decide_True; [reflexivity|lia].
      * rewrite IH. destruct (first_raise fw (S k) rest) as [[i e]|]; [|reflexivity].
        destruct (decide (i < S k + m)%nat), (decide (i < k + S m)%nat);
          try reflexivity; lia.
Qed.

(** ** The three ways a run can go *)

(** Up to the call of the loader the splits play no part: a run in which
    the framework raises there stops with that exception. *)
Lemma run_early (fw : Framework) :
  match first_raise fw 0 (take 11 (script (mnist_nclass fw))) with
  | Some (k, e) => exists w, run fw = Raised e w /\ stopped_at (mnist_nclass fw) k w
  | None => True
  end.
Proof.
  destruct fw as [r n s]. unfold stopped_at.
  vm_compute.
  do 11 (match goal with
         | |- context [r ?k ?ev] => destruct (r k ev)
         end;
         [eexists; split; [reflexivity|repeat split; vm_compute; reflexivity]|]).
  exact I.
Qed.

(** With the two splits of two arrays, the run stops at the first event at
    which the framework raises, or goes as the undisturbed one. *)
Lemma run_loaded (fw : Framework) :
  mnist_splits fw = [2; 2]%nat ->
  match first_raise fw 0 (script (mnist_nclass fw)) with
  | Some (k, e) => exists w, run fw = Raised e w /\ stopped_at (mnist_nclass fw) k w
  | None => run fw = run (quiet (mnist_nclass fw))
  end.
Proof.
  destruct fw as [r n s]. cbn [mnist_splits mnist_nclass]. intros ->.
  unfold stopped_at.
  vm_compute.
  repeat (match goal with
          | |- context [r ?k ?ev] => destruct (r k ev)
          end;
          [eexists; split; [reflexivity|repeat split; vm_compute; reflexivity]|]).
  reflexivity.
Qed.

Ltac finish_unpack :=
  vm_compute; eexists; split; [reflexivity|split; reflexivity].

(** With any other splits, a run that gets through the call of the loader
    stops in the unpacking of its result. *)
Lemma run_unpack (fw : Framework) :
  mnist_splits fw <> [2; 2]%nat ->
  first_raise fw 0 (take 11 (script (mnist_nclass fw))) = None ->
  exists w, run fw = Raised unpack_error w /\
            log w = take 11 (script (mnist_nclass fw)) /\
            stdout w = [].
Proof.
  destruct fw as [r n s]. cbn [mnist_splits mnist_nclass]. intros Hs Hq.
  vm_compute in Hq. vm_compute.
  do 11 (match goal with
         | |- context [r ?k ?ev] => destruct (r k ev); [discriminate Hq|]
         end).
  clear Hq.
  destruct s as [|a s]; [finish_unpack|].
  destruct a as [|[|[|a]]]; [finish_unpack|finish_unpack| |finish_unpack].
  destruct s as [|b s]; [finish_unpack|].
  destruct b as [|[|[|b]]]; [finish_unpack|finish_unpack| |finish_unpack].
  destruct s as [|c s]; [exfalso; apply Hs; reflexivity|].
  destruct s as [|d s]; finish_unpack.
Qed.

Lemma script_final (n : Z) : script n = log (final n).
Proof. unfold script, final. reflexivity. Qed.

(** A run that stops does so in one of two ways; a run that does not is the
    undisturbed one. *)
Lemma run_cases (fw : Framework) :
  let n := mnist_nclass fw in
  (exists k e w, first_raise fw 0 (script n) = Some (k, e) /\
                 ((10 < k)%nat -> mnist_splits fw = [2; 2]%nat) /\
                 run fw = Raised e w /\ stopped_at n k w) \/
  (exists w, mnist_splits fw <> [2; 2]%nat /\
             first_raise fw 0 (take 11 (script n)) = None /\
             run fw = Raised unpack_error w /\
             log w = take 11 (script n) /\ stdout w = []) \/
  (mnist_splits fw = [2; 2]%nat /\ first_raise fw 0 (script n) = None /\
   run fw = run (quiet n)).
Proof.
  cbv zeta.
  pose proof (run_early fw) as Hearly.
  pose proof (first_raise_take fw (script (mnist_nclass fw)) 0 11) as Htake.
  destruct (first_raise fw 0 (take 11 (script (mnist_nclass fw))))
    as [[k e]|] eqn:E11.
  - destruct Hearly as (w & Hr & Hst).
    destruct (first_raise fw 0 (script (mnist_nclass fw))) as [[k' e']|];
      [|discriminate Htake].
    destruct (decide (k' < 0 + 11)%nat) as [Hlt|]; [|discriminate Htake].
    injection Htake as -> ->.
    left. exists k', e', w. split; [reflexivity|]. split; [lia|]. split; assumption.
  - clear Hearly.
    destruct (decide (mnist_splits fw = [2; 2]%nat)) as [Hs|Hs].
    + pose proof (run_loaded fw Hs) as Hl.
      destruct (first_raise fw 0 (script (mnist_nclass fw))) as [[k e]|].
      * destruct Hl as (w & Hr & Hst). left. exists k, e, w.
        split; [reflexivity|]. split; [intros _; exact Hs|]. split; assumption.
      * right. right. split; [exact Hs|]. split; [reflexivity|exact Hl].
    + destruct (run_unpack fw Hs E11) as (w & Hr & Hl & Ho).
      right. left. exists w. split; [exact Hs|]. split; [reflexivity|].
      split; [exact Hr|]. split; assumption.
Qed.

Lemma run_quiet_done (n : Z) : exists g w, run (quiet n) = Done g w.
Proof. eexists _, _. vm_compute. reflexivity. Qed.

Lemma run_done (fw : Framework) (g : Globals) (w : World) :
  run fw = Done g w -> run (quiet (mnist_nclass fw)) = Done g w.
Proof.
  intros H.
  destruct (run_cases fw) as [(k & e & w' & _ & _ & Hr & _)
                             |[(w' & _ & _ & Hr & _)|(_ & _ & Hr)]];
    congruence.
Qed.

Lemma run_quiet (fw : Framework) :
  mnist_splits fw = [2; 2]%nat ->
  (forall i ev, raises fw i ev = None) -> run fw = run (quiet (mnist_nclass fw)).
Proof.
  intros Hs Hq. pose proof (run_loaded fw Hs) as Hc.
  by rewrite (first_raise_quiet fw _ _ Hq) in Hc.
Qed.

(** Turns a completed run into the concrete names it ends with; the store
    stays behind an equation until it is needed. *)
Ltac concretize H Hw :=
  apply run_done in H; vm_compute in H; injection H as <- Hw.

Ltac in_list :=
  apply list_elem_of_In; vm_compute; repeat first [left; reflexivity | right].

Ltac not_in_list :=
  rewrite list_elem_of_In; vm_compute; intuition discriminate.

Ltac each_path H :=
  repeat (apply elem_of_cons in H as [->|H]);
  [..|apply elem_of_nil in H; destruct H].

Ltac forall_list :=
  repeat first [apply List.Forall_nil | apply List.Forall_cons].

Ltac each_index i :=
  repeat (destruct i as [|i]; cbn [lookup list_lookup] in *; simplify_eq).

Ltac no_dup := apply (bool_decide_unpack _); vm_compute; exact I.

(** ** Completed runs *)

Section Completed.

Variables (fw : Framework) (g : Globals) (w : World).
Hypothesis Hrun : run fw = Done g w.

Lemma marker_cases (b : Value) :
  is_marker w b = true -> b = b1 (topology g) \/ b = b2 (topology g).
Proof.
  pose proof Hrun as H. concretize H Hw. subst w. cbn [topology b1 b2].
  intros Hb. destruct b as [| | | | |id| |]; try discriminate Hb.
  do 11 (destruct id as [|id]; [discriminate Hb|]).
  destruct id as [|id]; [by left|].
  destruct id as [|id]; [by right|].
  do 22 (destruct id as [|id]; [discriminate Hb|]).
  discriminate Hb.
Qed.

(** C1: the tree builder is given three leaf-terminal paths and three
    weights, the cost aggregate three cost functions: the three counts agree. *)
Theorem C1_counts_agree : counts_agree g w.
Proof.
  pose proof Hrun as H. concretize H Hw. subst w.
  unfold counts_agree.
  eexists _, _, _.
  do 3 (split; [vm_compute; reflexivity|]).
  split; [in_list|]. split; [in_list|].
  repeat split; try reflexivity.
  forall_list; eexists; split; reflexivity.
Qed.

(** C3: a marker listed by more than one path comes, in each of them, before
    the layers that are meant to read its output: its reader follows it
    directly, and in a branch path the marker is the first element. *)
Theorem C3_ordering_invariant : ordering_invariant g w.
Proof.
  pose proof marker_cases as Hm.
  pose proof Hrun as H. concretize H Hw. cbn [topology b1 b2 p1 p2 p3] in Hm.
  unfold ordering_invariant; cbn [topology b1 b2 p1 p2 p3].
  do 4 (split; [subst w; vm_compute; reflexivity|]).
  split; [|split].
  - intros p b x i j Hp Hb _ Hi Hj Hc.
    destruct (Hm b Hb) as [-> | ->]; clear Hm Hb; revert Hw Hc;
      each_path Hp; each_index i; each_index j; intros <- Hc;
      solve [lia | vm_compute in Hc; discriminate Hc].
  - intros p b i Hp Hb Hi.
    destruct (Hm b Hb) as [-> | ->]; clear Hm Hb; revert Hw;
      each_path Hp; each_index i; intros <-; eexists;
      (split; [reflexivity|split; vm_compute; reflexivity]).
  - intros p b i Hp Hb Hi.
    destruct (Hm b Hb) as [-> | ->]; clear Hm Hb;
      each_path Hp; each_index i; reflexivity.
Qed.

(** C4: the trunk is the first path given to the tree builder; it starts at
    the layer that reads the data and holds the whole main line, and each
    later path opens with the marker at which it leaves the trunk, the
    trunk layers before that marker being the ones the picture puts below
    the branch. *)
Theorem C4_trunk_first : trunk_first g w.
Proof.
  pose proof Hrun as H. concretize H Hw. subst w.
  unfold trunk_first.
  split; [vm_compute; reflexivity|].
  split; [eexists _, _; repeat split; vm_compute; reflexivity|].
  do 3 (split; [vm_compute; reflexivity|]).
  forall_list; eexists _, _, _;
    (do 6 (split; [vm_compute; reflexivity|]));
    cbn [tail]; forall_list; reflexivity.
Qed.

(** C5: the weights are the literals 1, 0.25 and 0.25, one per path, none of
    them a value obtained from the framework, each at least zero. *)
Theorem C5_constant_weights : constant_weights g w.
Proof.
  pose proof Hrun as H. concretize H Hw. subst w.
  unfold constant_weights.
  do 3 (split; [vm_compute; reflexivity|]).
  split; [eexists; split; vm_compute; reflexivity|].
  forall_list; eexists; (split; [reflexivity|]); vm_compute; discriminate.
Qed.

(** C7: the last thing the notebook does is one call of [fit] with ten
    epochs, a momentum optimizer (0.1, 0.9) and callbacks that evaluate
    every epoch on the iterator over the test arrays, which is another
    object than the training iterator; nothing refers to what [fit] returns. *)
Theorem C7_training_call : training_call g w.
Proof.
  pose proof Hrun as H. concretize H Hw. subst w.
  unfold training_call.
  do 6 (split; [vm_compute; reflexivity|]).
  split; [exists 10%nat; repeat split; vm_compute; reflexivity|].
  do 3 (split; [vm_compute; reflexivity|]).
  exists 40%nat, 34%nat.
  split; [vm_compute; reflexivity|].
  split; [vm_compute; reflexivity|].
  unfold unreferenced. repeat split; not_in_list.
Qed.

(** C8: the paths given to the tree hold markers and Affine layers and
    nothing else, eight layers in all; in every path a layer that is not
    the last one has a Rectlin activation and the last one a Softmax; the
    Logistic record is built and bound to [normsigm], and no layer, object
    or event refers to it. *)
Theorem C8_activations : activations_by_position g w.
Proof.
  pose proof Hrun as H. concretize H Hw.
  unfold activations_by_position; cbn [topology p1 p2 p3 normsigm init_norm model].
  split; [subst w; vm_compute; reflexivity|].
  split; [subst w; forall_list; first [left; vm_compute; reflexivity
                                      |right; vm_compute; reflexivity]|].
  split; [subst w; vm_compute; reflexivity|].
  split.
  { forall_list; intros i l Hi Hl; revert Hl Hw;
      each_index i; intros Hl <-;
      solve [vm_compute; reflexivity | vm_compute in Hl; discriminate Hl]. }
  subst w.
  split; [forall_list; eexists; split; reflexivity|].
  split; [vm_compute; reflexivity|].
  exists 9%nat.
  do 3 (split; [vm_compute; reflexivity|]).
  split; [not_in_list|]. split; [not_in_list|].
  forall_list; vm_compute; discriminate.
Qed.

(** C9: one Gaussian(loc=0.0, scale=0.01) is built, once; it is the [init]
    of the three records; the paths given to the tree hold markers and
    eight distinct Affine layers and nothing else, every path ends in a
    layer, and that Gaussian is the [init] of each of the eight, which are
    all the Affine objects there are. *)
Theorem C9_shared_initializer : shared_initializer g w.
Proof.
  pose proof Hrun as H. concretize H Hw. subst w.
  unfold shared_initializer.
  do 7 (split; [vm_compute; reflexivity|]).
  split; [forall_list; first [left; vm_compute; reflexivity
                             |right; vm_compute; reflexivity]|].
  split; [forall_list; eexists; split; reflexivity|].
  split; [vm_compute; reflexivity|].
  split; [no_dup|].
  split; [forall_list; intros Hl; vm_compute in Hl |- *;
          first [reflexivity | discriminate Hl]|].
  split; [vm_compute; reflexivity|].
  cbn [heap].
  forall_list; intros cls args kw Ho Hc; simplify_eq; vm_compute; reflexivity.
Qed.

(** C10: each marker is listed by the trunk and by exactly one branch path,
    by no path twice and never by both branch paths; the three costs are
    each a GeneralizedCost around a CrossEntropyMulti. *)
Theorem C10_markers_and_costs : markers_and_costs g w.
Proof.
  pose proof marker_cases as Hm.
  pose proof Hrun as H. concretize H Hw. cbn [topology b1 b2 p1 p2 p3] in Hm.
  unfold markers_and_costs; cbn [topology b1 b2 p1 p2 p3].
  do 8 (split; [vm_compute; reflexivity|]).
  split; [exact Hm|].
  split; [intros b Hb; destruct (Hm b Hb) as [-> | ->]; reflexivity|].
  split.
  { intros b p Hb Hp. destruct (Hm b Hb) as [-> | ->]; clear Hm Hb;
      each_path Hp; vm_compute; lia. }
  subst w. eexists. split; [vm_compute; reflexivity|]. split; [reflexivity|].
  forall_list; (split; [vm_compute; reflexivity|]);
    eexists; split; vm_compute; reflexivity.
Qed.

End Completed.

(** ** Initialization over MNIST *)

Lemma first_raise_none_cons (fw : Framework) (k : nat) (ev : Event) (rest : list Event) :
  raises fw k ev = None -> first_raise fw (S k) rest = None ->
  first_raise fw k (ev :: rest) = None.
Proof. intros Hev Hrest. simpl. by rewrite Hev. Qed.

(** C2: over MNIST with ten classes and a framework whose initialize is the
    shape resolution, the notebook runs through: the trunk is 100, 32, 16,
    10 wide and both branch heads 16, 10, shape resolution succeeds for
    every positive input width, and the three paths end in three distinct
    layers that each emit ten units, the class count. *)
Theorem C2_mnist_topology (fw : Framework) (input : Z) :
  mnist_nclass fw = 10 ->
  mnist_splits fw = [2; 2]%nat ->
  0 < input ->
  resolves_shapes fw input ->
  exists g w, run fw = Done g w /\ mnist_topology g w.
Proof.
  intros Hn Hs Hinput [Hother Hinit].
  assert (Hq : first_raise fw 0 (script (mnist_nclass fw)) = None).
  { rewrite Hn in *. remember (script 10) as evs eqn:Hevs.
    vm_compute in Hevs. subst evs.
    repeat (apply first_raise_none_cons;
            [first [apply Hother; reflexivity
                   |rewrite Hinit; destruct input as [|p|p];
                    [lia|vm_compute; reflexivity|lia]]|]).
    reflexivity. }
  pose proof (run_loaded fw Hs) as Hrun. rewrite Hq, Hn in Hrun. rewrite Hrun.
  eexists _, _. split; [vm_compute; reflexivity|].
  unfold mnist_topology.
  do 5 (split; [vm_compute; reflexivity|]).
  split; [in_list|].
  split; [intros [|p|p] Hp; [lia|vm_compute; reflexivity|lia]|].
  split; [vm_compute; reflexivity|].
  split; [no_dup|].
  split; [vm_compute; reflexivity|].
  cbn [terminal_layers omap list_omap terminal last p1 p2 p3 topology].
  forall_list; repeat split; vm_compute; reflexivity.
Qed.

(** The same framework over seven classes stops the run in initialize: the
    shape resolution is what decides. *)
Lemma shape_resolving_rejects :
  exists w, run (shape_resolving 784 7) = Raised shape_error w /\
            last (log w) = Some initialize_event.
Proof. eexists. split; vm_compute; reflexivity. Qed.

(** ** Exceptions *)

Lemma stops_at_first_raise (fw : Framework) (k : nat) (e : Exn) :
  first_raise fw 0 (script (mnist_nclass fw)) = Some (k, e) ->
  ((10 < k)%nat -> mnist_splits fw = [2; 2]%nat) ->
  exists w, run fw = Raised e w /\ stopped_at (mnist_nclass fw) k w.
Proof.
  intros Hk Hs.
  destruct (decide (k < 11)%nat) as [Hlt|Hge].
  - pose proof (run_early fw) as He.
    rewrite first_raise_take, Hk, decide_True in He by lia. exact He.
  - pose proof (run_loaded fw (Hs ltac:(lia))) as Hl.
    rewrite Hk in Hl. exact Hl.
Qed.

(** C6: at whichever event of the notebook the framework first raises, the
    run ends with that very exception; the event that raised is the last
    one attempted, and the store and the output are exactly what the events
    before it had produced: nothing is caught, handled, retried or replaced.
    An event behind the call of the loader is reached only if the loader
    returned the two splits of two arrays that the notebook unpacks. *)
Theorem C6_exceptions_propagate (fw : Framework) (j : nat) (ev : Event) (e : Exn) :
  script (mnist_nclass fw) !! j = Some ev ->
  (forall i ev', (i < j)%nat -> script (mnist_nclass fw) !! i = Some ev' ->
                 raises fw i ev' = None) ->
  raises fw j ev = Some e ->
  ((exists i, (i < j)%nat /\
              script (mnist_nclass fw) !! i = Some (ECall "load_mnist" [] [])) ->
   mnist_splits fw = [2; 2]%nat) ->
  exists w, run fw = Raised e w /\
            log w = take (S j) (script (mnist_nclass fw)) /\
            last (log w) = Some ev /\
            heap w = take (objects_returned (take j (script (mnist_nclass fw))))
                          (heap (final (mnist_nclass fw))) /\
            stdout w = take (values_printed (take j (script (mnist_nclass fw))))
                            (stdout (final (mnist_nclass fw))).
Proof.
  intros Hj Hbefore Hat Hsplits.
  pose proof (first_raise_at fw _ 0 j ev e Hj Hbefore Hat) as Hfirst.
  cbn [Nat.add] in Hfirst.
  destruct (stops_at_first_raise fw j e Hfirst) as (w & Hr & Hl & Hh & Ho).
  { intros Hlt. apply Hsplits. exists 10%nat. split; [exact Hlt|].
    generalize (mnist_nclass fw). intros n. vm_compute. reflexivity. }
  exists w. split; [exact Hr|]. split; [exact Hl|].
  split; [|split; assumption].
  rewrite Hl, (take_S_r _ _ ev Hj). apply last_snoc.
Qed.

(** ** Instances

    Each statement above that rests on a hypothesis, at a concrete
    framework: the quiet one over ten classes, or one that raises at the
    initialize call. *)

Lemma C1_counts_agree_witness :
  exists g w, run (quiet 10) = Done g w /\ counts_agree g w.
Proof.
  eexists _, _. split; [vm_compute; reflexivity|].
  apply (C1_counts_agree (quiet 10)). vm_compute; reflexivity.
Defined.

Lemma C2_mnist_topology_witness :
  mnist_nclass (shape_resolving 784 10) = 10 /\
  mnist_splits (shape_resolving 784 10) = [2; 2]%nat /\
  0 < 784 /\
  resolves_shapes (shape_resolving 784 10) 784 /\
  exists g w, run (shape_resolving 784 10) = Done g w /\ mnist_topology g w.
Proof.
  assert (Hres : resolves_shapes (shape_resolving 784 10) 784).
  { split.
    - intros k [m names|c args kw|self method args kw] Hev; [reflexivity..|].
      cbn [is_invoke] in Hev. cbn [raises shape_resolving]. rewrite Hev.
      destruct args as [|? [|? [|? ?]]], kw; reflexivity.
    - intros k self train_set cost. reflexivity. }
  split; [reflexivity|]. split; [reflexivity|]. split; [lia|].
  split; [exact Hres|].
  exact (C2_mnist_topology (shape_resolving 784 10) 784
           eq_refl eq_refl ltac:(lia) Hres).
Defined.

Lemma C3_ordering_invariant_witness :
  exists g w, run (quiet 10) = Done g w /\ ordering_invariant g w.
Proof.
  eexists _, _. split; [vm_compute; reflexivity|].
  apply (C3_ordering_invariant (quiet 10)). vm_compute; reflexivity.
Defined.

Lemma C4_trunk_first_witness :
  exists g w, run (quiet 10) = Done g w /\ trunk_first g w.
Proof.
  eexists _, _. split; [vm_compute; reflexivity|].
  apply (C4_trunk_first (quiet 10)). vm_compute; reflexivity.
Defined.

Lemma C5_constant_weights_witness :
  exists g w, run (quiet 10) = Done g w /\ constant_weights g w.
Proof.
  eexists _, _. split; [vm_compute; reflexivity|].
  apply (C5_constant_weights (quiet 10)). vm_compute; reflexivity.
Defined.

Lemma C6_exceptions_propagate_witness :
  script (mnist_nclass fails_to_initialize) !! 36%nat = Some initialize_event /\
  (forall i ev', (i < 36)%nat ->
                 script (mnist_nclass fails_to_initialize) !! i = Some ev' ->
                 raises fails_to_initialize i ev' = None) /\
  raises fails_to_initialize 36 initialize_event = Some shape_error /\
  mnist_splits fails_to_initialize = [2; 2]%nat /\
  exists w, run fails_to_initialize = Raised shape_error w /\
            log w = take 37 (script (mnist_nclass fails_to_initialize)) /\
            last (log w) = Some initialize_event /\
            length (heap w) = 30%nat /\
            stdout w = [].
Proof.
  assert (Hj : script (mnist_nclass fails_to_initialize) !! 36%nat
               = Some initialize_event)
    by (vm_compute; reflexivity).
  assert (Hbefore : forall i ev', (i < 36)%nat ->
            script (mnist_nclass fails_to_initialize) !! i = Some ev' ->
            raises fails_to_initialize i ev' = None).
  { intros i ev' Hi _. simpl. destruct (Nat.eqb_spec i 36); [lia|reflexivity]. }
  assert (Hat : raises fails_to_initialize 36 initialize_event = Some shape_error)
    by reflexivity.
  split; [exact Hj|]. split; [exact Hbefore|]. split; [exact Hat|].
  split; [reflexivity|].
  destruct (C6_exceptions_propagate fails_to_initialize 36 initialize_event
              shape_error Hj Hbefore Hat (fun _ => eq_refl))
    as (w & Hr & Hl & Hlast & Hh & Ho).
  exists w. split; [exact Hr|]. split; [exact Hl|]. split; [exact Hlast|].
  split; [rewrite Hh; vm_compute; reflexivity|rewrite Ho; vm_compute; reflexivity].
Defined.

Lemma C7_training_call_witness :
  exists g w, run (quiet 10) = Done g w /\ training_call g w.
Proof.
  eexists _, _. split; [vm_compute; reflexivity|].
  apply (C7_training_call (quiet 10)). vm_compute; reflexivity.
Defined.

Lemma C8_activations_witness :
  exists g w, run (quiet 10) = Done g w /\ activations_by_position g w.
Proof.
  eexists _, _. split; [vm_compute; reflexivity|].
  apply (C8_activations (quiet 10)). vm_compute; reflexivity.
Defined.

Lemma C9_shared_initializer_witness :
  exists g w, run (quiet 10) = Done g w /\ shared_initializer g w.
Proof.
  eexists _, _. split; [vm_compute; reflexivity|].
  apply (C9_shared_initializer (quiet 10)). vm_compute; reflexivity.
Defined.

Lemma C10_markers_and_costs_witness :
  exists g w, run (quiet 10) = Done g w /\ markers_and_costs g w.
Proof.
  eexists _, _. split; [vm_compute; reflexivity|].
  apply (C10_markers_and_costs (quiet 10)). vm_compute; reflexivity.
Defined.

(** * Further properties *)

(** ** Any framework *)

Lemma log_prefix (fw : Framework) :
  log (world_of (run fw)) `prefix_of` log (final (mnist_nclass fw)).
Proof.
  rewrite <- script_final.
  destruct (run_cases fw) as [(k & e & w & _ & _ & Hr & Hl & _)
                             |[(w & _ & _ & Hr & Hl & _)|(_ & _ & Hr)]];
    rewrite Hr; cbn [world_of].
  - rewrite Hl. apply prefix_take.
  - rewrite Hl. apply prefix_take.
  - unfold script. reflexivity.
Qed.


(** X2: the notebook runs to completion exactly when the loader returns two
    splits of two arrays and the framework raises at none of the events of
    the notebook. *)
Theorem X2_run_completes_iff (fw : Framework) :
  (exists g w, run fw = Done g w) <->
  (mnist_splits fw = [2; 2]%nat /\
   forall j ev, script (mnist_nclass fw) !! j = Some ev -> raises fw j ev = None).
Proof.
  pose proof (first_raise_none_iff fw (script (mnist_nclass fw)) 0) as Hn.
  cbn [Nat.add] in Hn. rewrite <- Hn. clear Hn.
  destruct (run_cases fw) as [(k & e & w & Hfirst & _ & Hr & _)
                             |[(w & Hs & _ & Hr & _)|(Hs & Hq & Hr)]].
  - split.
    + intros (g & w' & Hd). congruence.
    + intros [_ Hq]. congruence.
  - split.
    + intros (g & w' & Hd). congruence.
    + intros [Hs' _]. contradiction.
  - split.
    + intros _. split; assumption.
    + intros _. rewrite Hr. apply run_quiet_done.
Qed.

Lemma existsb_eqb_elem_of (c : string) (l : list string) :
  existsb (String.eqb c) l = true -> c ∈ l.
Proof.
  induction l as [|x l IH]; simpl; [discriminate|].
  destruct (String.eqb_spec c x) as [->|_]; simpl.
  - intros _. apply list_elem_of_here.
  - intros H. apply list_elem_of_further, IH, H.
Qed.

Lemma calls_imported_sound (evs : list Event) (imported : list string) :
  calls_imported imported evs = true ->
  forall k c args kw,
    evs !! k = Some (ECall c args kw) ->
    c ∈ imported \/
    exists i m names, (i < k)%nat /\ evs !! i = Some (EImport m names) /\ c ∈ names.
Proof.
  revert imported.
  induction evs as [|ev rest IH]; intros imported Hok k c args kw Hk;
    [discriminate Hk|].
  destruct k as [|k]; simpl in Hk.
  - injection Hk as ->. simpl in Hok.
    apply andb_prop in Hok as [Hc _]. left. by apply existsb_eqb_elem_of.
  - assert (Hrest : exists imported',
               calls_imported imported' rest = true /\
               (forall x, x ∈ imported' ->
                          x ∈ imported \/ exists m names, ev = EImport m names /\ x ∈ names)).
    { destruct ev as [m names|c' args' kw'|self meth args' kw']; simpl in Hok.
      - exists (names ++ imported)%list. split; [exact Hok|].
        intros x Hx. apply elem_of_app in Hx as [Hx|Hx]; [right|left]; eauto.
      - apply andb_prop in Hok as [_ Hok]. exists imported. eauto.
      - exists imported. eauto. }
    destruct Hrest as (imported' & Hok' & Himp).
    destruct (IH imported' Hok' k c args kw Hk) as [Hin|(i & m & names & Hi & Hev & Hin)].
    + destruct (Himp c Hin) as [?|(m & names & -> & Hin')]; [by left|].
      right. exists 0%nat, m, names. split; [lia|]. split; [reflexivity|exact Hin'].
    + right. exists (S i), m, names. split; [lia|]. split; [exact Hev|exact Hin].
Qed.

Lemma imports_precede_calls_prefix (l1 l2 : list Event) :
  l1 `prefix_of` l2 -> imports_precede_calls l2 -> imports_precede_calls l1.
Proof.
  intros Hp H k c args kw Hk.
  destruct (H k c args kw (prefix_lookup_Some _ _ _ _ Hk Hp))
    as (i & m & names & Hi & Hev & Hin).
  exists i, m, names. split; [exact Hi|]. split; [|exact Hin].
  rewrite (prefix_lookup_lt l1 l2 i); [exact Hev| |exact Hp].
  apply lookup_lt_Some in Hk. lia.
Qed.

(** X3: whatever the framework does, every call into the framework, that is
    every class or function of Neon the notebook calls, names something an
    import that ran before the call has bound (the builtin [dict] is no
    such call); in a full run the only imported names never called are
    CrossEntropyBinary and Misclassification. *)
Theorem X3_calls_are_imported (fw : Framework) :
  imports_precede_calls (log (world_of (run fw))) /\
  unused_imports (script (mnist_nclass fw)) =
    ["CrossEntropyBinary"; "Misclassification"].
Proof.
  split; [|vm_compute; reflexivity].
  apply (imports_precede_calls_prefix _ _ (log_prefix fw)).
  generalize (mnist_nclass fw) as n. clear. intros n.
  intros k c args kw Hk.
  assert (Hok : calls_imported [] (log (final n)) = true)
    by (vm_compute; reflexivity).
  destruct (calls_imported_sound _ _ Hok k c args kw Hk) as [Hin|H]; [|exact H].
  apply elem_of_nil in Hin. destruct Hin.
Qed.


(** ** More on completed runs *)

Section CompletedMore.

Variables (fw : Framework) (g : Globals) (w : World).
Hypothesis Hrun : run fw = Done g w.

(** X5: the class count the loader reports goes unchanged into both
    iterators, while the three terminal layers are ten wide whatever it is:
    they match the class count exactly when the data set has ten classes. *)
Theorem X5_class_count_flows : class_count_flows fw g w.
Proof.
  pose proof Hrun as H. apply run_done in H.
  unfold class_count_flows.
  set (n := mnist_nclass fw) in *. clearbody n.
  vm_compute in H. injection H as <- <-.
  cbn [data topology nclass p1 p2 p3 terminal_layers omap list_omap terminal last].
  split; [reflexivity|].
  do 2 (split; [vm_compute; reflexivity|]).
  split; [forall_list; vm_compute; reflexivity|].
  split.
  - intros Hall. apply Forall_cons in Hall as [Hl _].
    vm_compute in Hl. congruence.
  - intros ->. forall_list; vm_compute; reflexivity.
Qed.

(** X6: the paths realise the picture of the first cell: the layers in the
    paths are the layers drawn, each once and each an object of its own,
    and they are all the Affine objects there are; every layer reads from
    the node the picture puts below it; and the paths end, in order, on the
    layers under cost1, cost2 and cost3. *)
Theorem X6_picture_realised : picture_realised g w.
Proof.
  pose proof Hrun as H. concretize H Hw.
  unfold picture_realised; cbn [topology p1 p2 p3].
  split; [subst w; vm_compute; reflexivity|].
  split; [no_dup|].
  split; [subst w; no_dup|].
  do 2 (split; [subst w; vm_compute; reflexivity|]).
  split; [|subst w; vm_compute; reflexivity].
  intros p i l n Hp Hi Hl Hn. revert Hw Hl Hn.
  each_path Hp; each_index i; intros <- Hl Hn;
    first [discriminate Hl | vm_compute in Hn; injection Hn as <-; vm_compute; reflexivity].
Qed.

(** X7: the activation of every layer that is not the last of its path is
    the one object [normrelu] holds, which is the only Rectlin there is; the
    activation of every last layer is the one object [normsoft] holds, the
    only Softmax; the eight layers are eight different objects, and each of
    the three costs has a cost function object of its own. *)
Theorem X7_sharing : sharing g w.
Proof.
  pose proof Hrun as H. concretize H Hw.
  unfold sharing; cbn [topology p1 p2 p3 normrelu normsoft].
  split.
  { forall_list; intros i l Hi Hl; revert Hl Hw;
      each_index i; intros Hl <-;
      solve [vm_compute; reflexivity | vm_compute in Hl; discriminate Hl]. }
  subst w.
  split; [eexists _, _; repeat split; vm_compute; reflexivity|].
  do 3 (split; [vm_compute; reflexivity|]).
  split; [apply (bool_decide_unpack _); vm_compute; exact I|].
  eexists. split; [vm_compute; reflexivity|].
  split; [apply (bool_decide_unpack _); vm_compute; exact I|].
  split; [apply (bool_decide_unpack _); vm_compute; exact I|].
  split; vm_compute; reflexivity.
Qed.

(** X8: initialize, print, Callbacks and fit all act on the one model; fit
    trains on the iterator and the cost the model was initialized with; no
    method is invoked before everything but the optimizer and the callbacks
    is built; and what the notebook itself writes is the text of the model
    followed by a newline, nothing else. *)
Theorem X8_same_objects_throughout : same_objects_throughout g w.
Proof.
  pose proof Hrun as H. concretize H Hw. subst w.
  unfold same_objects_throughout.
  match goal with
  | |- context [log ?W = _] => exists (take 36 (log W)), 31%nat
  end.
  split; [vm_compute; reflexivity|].
  split; [vm_compute; forall_list; exact I|].
  do 3 (split; [vm_compute; reflexivity|]).
  split; vm_compute; reflexivity.
Qed.

End CompletedMore.

(** ** The layer constructor *)

Lemma shares_key_elem_of (kw d : Kwargs) :
  shares_key kw d = true <-> exists k, k ∈ keys kw /\ k ∈ keys d.
Proof.
  unfold shares_key. rewrite existsb_exists. split.
  - intros (k & Hk & Hd). exists k. split; [by apply list_elem_of_In|].
    apply existsb_exists in Hd as (k' & Hk' & Heq).
    apply String.eqb_eq in Heq as ->. by apply list_elem_of_In.
  - intros (k & Hk & Hd). exists k. split; [by apply list_elem_of_In|].
    apply existsb_exists. exists k. split; [by apply list_elem_of_In|].
    apply String.eqb_refl.
Qed.

Lemma kwarg_other (k : string) (v : Value) (k' : string) (d : Kwargs) :
  k' <> k -> kwarg k' ((k, v) :: d) = kwarg k' d.
Proof.
  intros Hne. unfold kwarg. simpl.
  destruct (String.eqb_spec k' k) as [->|_]; [contradiction|reflexivity].
Qed.

(** X10: with a record that carries neither, and a framework that lets the
    call through, the layer is one new object at the end of the store; it
    has the given width and name and, for every other key, what the record
    holds; the call is the one event added and the objects already there
    are untouched. *)
Theorem X10_Affine_builds (fw : Framework) (n : Z) (s : string)
    (d : Kwargs) (w : World) :
  "nout" ∉ keys d -> "name" ∉ keys d ->
  raises fw (length (log w))
    (ECall "Affine" [] (("nout", VInt n) :: ("name", VStr s) :: d)) = None ->
  exists w',
    Affine fw n s d w = Done (VObj (length (heap w))) w' /\
    heap w' = (heap w ++ [Instance "Affine" [] (("nout", VInt n) :: ("name", VStr s) :: d)])%list /\
    log w' = (log w ++ [ECall "Affine" [] (("nout", VInt n) :: ("name", VStr s) :: d)])%list /\
    stdout w' = stdout w /\
    is_layer w' (VObj (length (heap w))) = true /\
    nout w' (VObj (length (heap w))) = Some n /\
    layer_name w' (VObj (length (heap w))) = Some s /\
    (forall k, k <> "nout" -> k <> "name" ->
               attr w' (VObj (length (heap w))) k = kwarg k d) /\
    (forall v o, deref w v = Some o -> deref w' v = Some o).
Proof.
  intros Hn Hs Hq.
  assert (Hk : shares_key [("nout", VInt n); ("name", VStr s)] d = false).
  { destruct (shares_key _ d) eqn:E; [|reflexivity].
    apply shares_key_elem_of in E as (k & Hk & Hd).
    apply elem_of_cons in Hk as [->|Hk]; [contradiction|].
    apply list_elem_of_singleton in Hk as ->. contradiction. }
  unfold Affine, splat. rewrite Hk.
  unfold new, attempt, alloc, mbind, M_bind, mret, M_ret. cbn [app].
  rewrite Hq. cbn [heap log stdout].
  set (layer := Instance "Affine" [] (("nout", VInt n) :: ("name", VStr s) :: d)).
  set (w' := mkWorld (heap w ++ [layer]) _ (stdout w)).
  exists w'. split; [reflexivity|].
  do 3 (split; [reflexivity|]).
  assert (Hd : deref w' (VObj (length (heap w))) = Some layer).
  { unfold deref, w'. cbn [heap]. apply list_lookup_middle. reflexivity. }
  unfold is_layer, has_class, class_of, nout, layer_name, attr.
  rewrite Hd. unfold layer.
  split; [reflexivity|]. split; [reflexivity|]. split; [reflexivity|].
  split.
  - intros k Hk1 Hk2. by rewrite !kwarg_other.
  - intros [| | | | |id| |] o Hv; try discriminate Hv.
    unfold deref, w' in *. cbn [heap]. apply lookup_app_l_Some. exact Hv.
Qed.

(** ** Instances of the further statements *)


Lemma X5_class_count_flows_witness :
  exists g w, run (quiet 10) = Done g w /\ class_count_flows (quiet 10) g w.
Proof.
  eexists _, _. split; [vm_compute; reflexivity|].
  apply (X5_class_count_flows (quiet 10)). vm_compute; reflexivity.
Defined.

Lemma X6_picture_realised_witness :
  exists g w, run (quiet 10) = Done g w /\ picture_realised g w.
Proof.
  eexists _, _. split; [vm_compute; reflexivity|].
  apply (X6_picture_realised (quiet 10)). vm_compute; reflexivity.
Defined.

Lemma X7_sharing_witness :
  exists g w, run (quiet 10) = Done g w /\ sharing g w.
Proof.
  eexists _, _. split; [vm_compute; reflexivity|].
  apply (X7_sharing (quiet 10)). vm_compute; reflexivity.
Defined.

Lemma X8_same_objects_throughout_witness :
  exists g w, run (quiet 10) = Done g w /\ same_objects_throughout g w.
Proof.
  eexists _, _. split; [vm_compute; reflexivity|].
  apply (X8_same_objects_throughout (quiet 10)). vm_compute; reflexivity.
Defined.

Lemma X10_Affine_builds_witness :
  exists w',
    Affine (quiet 10) 100 "m_l1" [("init", VObj 7); ("activation", VObj 8)] w0
      = Done (VObj 0) w' /\
    nout w' (VObj 0) = Some 100 /\
    attr w' (VObj 0) "init" = Some (VObj 7).
Proof.
  destruct (X10_Affine_builds (quiet 10) 100 "m_l1"
              [("init", VObj 7); ("activation", VObj 8)] w0)
    as (w' & Hrun & _ & _ & _ & _ & Hn & _ & Hattr & _).
  - apply (bool_decide_unpack _); vm_compute; exact I.
  - apply (bool_decide_unpack _); vm_compute; exact I.
  - reflexivity.
  - exists w'. split; [exact Hrun|]. split; [exact Hn|].
    rewrite Hattr; [reflexivity|discriminate|discriminate].
Defined.
